(** * generate-eni-max-pods: a shallow embedding of
      [packages/os/generate-eni-max-pods.py]

    The script fetches one documentation page, picks a table with a size
    heuristic, walks its rows and prints ["<instance type> <max pods>"] for
    each row it can read.  The development below follows the script line by
    line.  What the script takes from its libraries is modelled as those
    libraries document it:

    - Python [str] values are [string]s of 8-bit characters, read as the code
      points 0..255; Python [int] values are [Z] (unbounded).  The script is
      modelled twice: first under an interpreter without the limit on the
      number of digits converted between [int] and [str] (the limit disabled,
      or an interpreter older than the limit), then, in [Limited], with that
      limit as a parameter;
    - the BeautifulSoup tree is the inductive type [PageElement]; the HTML
      parser itself is not modelled, the tree it returns is the input;
    - [requests.get] either raises or returns a response; it does not raise
      on a non-success status code;
    - [BeautifulSoup(...)] returns a tree and [print] writes its line: a
      parser or an output stream that raises is outside the model;
    - an uncaught exception ends the interpreter with exit code 1, normal
      completion with exit code 0. *)

From Stdlib Require Import ZArith List String Ascii Bool Lia.
From Stdlib Require Import DecimalString DecimalPos DecimalZ.
Import ListNotations.

Open Scope string_scope.
Open Scope Z_scope.

(** ** Python strings *)

Module PyStr.

(** [str.isspace] on one character, for code points below 256: the
    characters Python's [strip()] removes are TAB..CR (9..13), FS..US
    (28..31), the space, NEL (133) and the no-break space (160). *)
Definition isspace (c : ascii) : bool :=
  let n := N_of_ascii c in
  ((9 <=? n) && (n <=? 13) || (28 <=? n) && (n <=? 31) || (n =? 32)
   || (n =? 133) || (n =? 160))%N.

Fixpoint lstrip (s : string) : string :=
  match s with
  | EmptyString => EmptyString
  | String c s' => if isspace c then lstrip s' else s
  end.

Fixpoint rstrip (s : string) : string :=
  match s with
  | EmptyString => EmptyString
  | String c s' =>
      match rstrip s' with
      | EmptyString => if isspace c then EmptyString else String c EmptyString
      | r => String c r
      end
  end.

(** [s.strip()]: whitespace removed at both ends. *)
Definition strip (s : string) : string := rstrip (lstrip s).




Definition newline : string := String (ascii_of_nat 10) EmptyString.

(** ** Python integers and their decimal text *)

Definition digit_value (c : ascii) : option Z :=
  let n := N_of_ascii c in
  if ((48 <=? n) && (n <=? 57))%N then Some (Z.of_N n - 48) else None.

Definition is_underscore (c : ascii) : bool := Ascii.eqb c "_"%char.

(** The digit loop of [int(s)] in base 10: digits, with single underscores
    allowed between digits.  [prev_us] tells whether the character just
    read was an underscore. *)
Fixpoint scan_digits (s : string) (prev_us : bool) (acc : Z) : option Z :=
  match s with
  | EmptyString => if prev_us then None else Some acc
  | String c s' =>
      if is_underscore c then
        if prev_us then None else scan_digits s' true acc
      else
        match digit_value c with
        | Some d => scan_digits s' false (10 * acc + d)
        | None => None
        end
  end.

(** At least one digit, and no underscore in front. *)
Definition int_unsigned (s : string) : option Z :=
  match s with
  | EmptyString => None
  | String c _ => if is_underscore c then None else scan_digits s false 0
  end.

(** [int(s)] for a [str] [s], [None] standing for [ValueError].  The script
    only ever passes the result of [strip()], so the whitespace that [int]
    itself would skip at either end never occurs; it is not accepted
    here. *)
Definition int (s : string) : option Z :=
  match s with
  | String "+"%char r => int_unsigned r
  | String "-"%char r => option_map Z.opp (int_unsigned r)
  | _ => int_unsigned s
  end.

(** [str(n)], which is also what [f'{n}'] formats: a minus sign for
    negative numbers, then the decimal digits without leading zeros. *)
Definition str (n : Z) : string := NilZero.string_of_int (Z.to_int n).

End PyStr.

(** ** The BeautifulSoup tree *)

(** A node of the parsed document: a tag with its name and its [contents]
    (attributes play no part in the script), a text node, or a string node
    that [get_text] leaves out (a comment, a doctype, a declaration). *)
#[warning="-register-all"]
Inductive PageElement : Type :=
| Tag (name : string) (contents : list PageElement)
| NavigableString (s : string)
| Comment (s : string).

Module Soup.

(** [tag.descendants]: every node below the tag, in document order. *)
Fixpoint descendants (e : PageElement) : list PageElement :=
  match e with
  | Tag _ contents => flat_map (fun c => c :: descendants c) contents
  | NavigableString _ => []
  | Comment _ => []
  end.

Definition is_tag (name : string) (e : PageElement) : bool :=
  match e with
  | Tag n _ => String.eqb n name
  | _ => false
  end.

(** [tag.find_all(name)] (and its old spelling [findAll]): the descendants
    that are tags of that name, in document order, nested ones included. *)
Definition find_all (name : string) (e : PageElement) : list PageElement :=
  filter (is_tag name) (descendants e).

(** [len(tag)] is the length of [tag.contents]: the direct children, text
    nodes and comments counted like child tags. *)
Definition len (e : PageElement) : nat :=
  match e with
  | Tag _ contents => List.length contents
  | NavigableString s => String.length s
  | Comment s => String.length s
  end.

Definition own_string (e : PageElement) : string :=
  match e with
  | NavigableString s => s
  | _ => EmptyString
  end.

(** [tag.text]: the text nodes below the tag, joined in document order. *)
Definition text (e : PageElement) : string :=
  String.concat EmptyString (map own_string (descendants e)).

Definition is_any_tag (e : PageElement) : bool :=
  match e with Tag _ _ => true | _ => false end.

(** The number of elements (tags) below a node, at any depth.  The script
    does not compute it; it is the measure the table heuristic is compared
    with. *)
Definition descendant_elements (e : PageElement) : nat :=
  List.length (filter is_any_tag (descendants e)).

End Soup.

(** ** The script *)

Inductive exception : Type :=
| RequestException
| NameError (name : string)
| IndexError
| ValueError.

Inductive result (A : Type) : Type :=
| Ok (a : A)
| Raise (e : exception).
Arguments Ok {A} a.
Arguments Raise {A} e.

Definition bind {A B : Type} (m : result A) (k : A -> result B) : result B :=
  match m with
  | Ok a => k a
  | Raise e => Raise e
  end.

Notation "x <- m ;; k" := (bind m (fun x => k))
  (at level 61, m at next level, right associativity).

(** [cells[n]] on a Python list, for [n >= 0]. *)
Definition index {A : Type} (l : list A) (n : nat) : result A :=
  match nth_error l n with
  | Some a => Ok a
  | None => Raise IndexError
  end.

(** [int(s)], raising [ValueError]. *)
Definition int (s : string) : result Z :=
  match PyStr.int s with
  | Some n => Ok n
  | None => Raise ValueError
  end.

(** What [requests.get] does: it raises ([ConnectionError], [Timeout], ...,
    all of them [RequestException]s), or it returns a response, whatever its
    status code.  [soup] is [BeautifulSoup(response.text)]. *)
Record Response : Type := {
  status_code : Z;
  soup : PageElement
}.

Inductive fetched : Type :=
| GetRaises
| GetReturns (response : Response).

(** [print(s)] appends the text and a newline to standard output. *)
Definition print (s : string) (stdout : string) : string :=
  stdout ++ s ++ PyStr.newline.

(** Lines 13-15: [t] is assigned at every table with [len(table) > 50], and
    is unbound ([None]) when no table qualifies. *)
Definition keep_long (t : option PageElement) (table : PageElement)
  : option PageElement :=
  if (50 <? Soup.len table)%nat then Some table else t.

Definition select_table (tables : list PageElement) : option PageElement :=
  fold_left keep_long tables None.

(** A table the heuristic passes over. *)
Definition small (t : PageElement) : Prop := (Soup.len t <= 50)%nat.

(** Line 31. *)
Definition max_pods (instance_enis ips_per_eni : Z) : Z :=
  (instance_enis - 1) * (ips_per_eni - 1) + 2.

(** Lines 25-27, the body of the [try]. *)
Definition read_cells (cells : list PageElement) : result (string * Z * Z) :=
  c0 <- index cells 0 ;;
  let instance_type := PyStr.strip (Soup.text c0) in
  c1 <- index cells 1 ;;
  instance_enis <- int (PyStr.strip (Soup.text c1)) ;;
  c2 <- index cells 2 ;;
  ips_per_eni <- int (PyStr.strip (Soup.text c2)) ;;
  Ok (instance_type, instance_enis, ips_per_eni).

(** The line printed for a row that was read. *)
Definition format_line (instance_type : string) (pods : Z) : string :=
  instance_type ++ " " ++ PyStr.str pods.

(** One turn of the loop over the rows, lines 20-32: the row is skipped
    ([continue]), a line is printed, or an exception leaves the loop. *)
Inductive row_outcome : Type :=
| Skipped
| Printed (line : string)
| Raised (e : exception).

Definition row_body (row : PageElement) : row_outcome :=
  let cells := Soup.find_all "td" row in
  if (List.length cells <? 1)%nat then Skipped
  else
    match read_cells cells with
    | Raise ValueError => Skipped
    | Raise e => Raised e
    | Ok (instance_type, instance_enis, ips_per_eni) =>
        Printed (format_line instance_type (max_pods instance_enis ips_per_eni))
    end.

(** Lines 19-32: standard output is threaded through the rows; an uncaught
    exception stops the run and keeps what was printed before. *)
Fixpoint rows_loop (rows : list PageElement) (stdout : string)
  : string * option exception :=
  match rows with
  | [] => (stdout, None)
  | row :: rest =>
      match row_body row with
      | Skipped => rows_loop rest stdout
      | Printed line => rows_loop rest (print line stdout)
      | Raised e => (stdout, Some e)
      end
  end.

(** The whole script: what is on standard output at the end, and the
    exception that ended the run, if any. *)
Definition main (w : fetched) : string * option exception :=
  match w with
  | GetRaises => (EmptyString, Some RequestException)
  | GetReturns response =>
      let parsed_html := soup response in
      let tables := Soup.find_all "table" parsed_html in
      match select_table tables with
      | None => (EmptyString, Some (NameError "t"))
      | Some t => rows_loop (Soup.find_all "tr" t) EmptyString
      end
  end.

Definition exit_code (run : string * option exception) : Z :=
  match snd run with
  | None => 0
  | Some _ => 1
  end.

(** ** Notions used in the statements *)

(** A row parses successfully when the [try] block reads all three values. *)
Definition parsed (row : PageElement) : option (string * Z * Z) :=
  match read_cells (Soup.find_all "td" row) with
  | Ok r => Some r
  | Raise _ => None
  end.

(** The text that one successfully parsed row puts on standard output. *)
Definition line_of (r : string * Z * Z) : string :=
  let '(instance_type, instance_enis, ips_per_eni) := r in
  format_line instance_type (max_pods instance_enis ips_per_eni) ++ PyStr.newline.

(** One line for each row that parses, in the order of the rows. *)
Fixpoint lines_of (rows : list PageElement) : string :=
  match rows with
  | [] => EmptyString
  | row :: rest =>
      match parsed row with
      | Some r => line_of r ++ lines_of rest
      | None => lines_of rest
      end
  end.


(** ** Documents used in the examples *)

Definition td (s : string) : PageElement := Tag "td" [NavigableString s].
Definition th (s : string) : PageElement := Tag "th" [NavigableString s].
Definition tr (cells : list PageElement) : PageElement := Tag "tr" cells.
Definition table (rows : list PageElement) : PageElement := Tag "table" rows.
Definition document (body : list PageElement) : PageElement :=
  Tag "[document]" body.

(** A row of data cells with the given texts. *)
Definition data_row (texts : list string) : PageElement := tr (map td texts).

Definition padding (n : nat) : list PageElement := repeat (tr []) n.

(** A table with 51 rows as its direct children, and a table whose 51 rows
    sit inside a single [tbody] child. *)
Definition long_table : PageElement := table (padding 51).
Definition deep_table : PageElement := table [Tag "tbody" (padding 51)].
Definition two_tables_doc : PageElement := document [long_table; deep_table].

(** A table that passes the size heuristic and has one readable row. *)
Definition data_table : PageElement :=
  table (data_row ["t3.micro"; "2"; "4"] :: padding 50).

(** A "404 Not Found" response whose body happens to carry such a table. *)
Definition not_found_response : Response :=
  {| status_code := 404; soup := document [data_table] |}.


(** A table with 51 text nodes and no element below it. *)
Definition text_only_table : PageElement :=
  table (repeat (NavigableString " ") 51).

Definition small_table_response : Response :=
  {| status_code := 200;
     soup := document [table [data_row ["t3.micro"; "2"; "4"]]] |}.


(** A long table made of header rows only. *)
Definition header_table : PageElement :=
  table (repeat (tr [th "Instance type"; th "Maximum network interfaces"]) 51).

(** The same three values, with markup inside the cells and more cells
    after them. *)
Definition marked_up_row : PageElement :=
  tr [Tag "td" [Tag "code" [NavigableString "t3"; NavigableString ".micro"]];
      Tag "td" [Comment "ENIs"; NavigableString " 2"];
      td "4"; td "IPv6: 4"].

(** ** The interpreter's limit on conversions between [int] and [str] *)

(** Since Python 3.11 (and the security releases of 3.7 to 3.10) [int(s)]
    and [str(n)] raise [ValueError] when they read or write more decimal
    digits than [sys.get_int_max_str_digits()]: 4300 unless configured;
    0 disables the limit, and no other value below 640 can be set.  Sign and
    underscores do not count.  [Limited] is the script again, line by line,
    with the limit as the parameter [max_str_digits].  What changes: a cell
    with too many digits raises the [ValueError] that skips the row, and
    formatting [max_pods] at line 32, outside the [try], can raise a
    [ValueError] that nothing catches. *)
Module Limited.

(** The digit characters of a text. *)
Fixpoint digit_count (s : string) : nat :=
  match s with
  | EmptyString => 0%nat
  | String c s' =>
      match PyStr.digit_value c with
      | Some _ => S (digit_count s')
      | None => digit_count s'
      end
  end.

(** The decimal digits of a number. *)
Definition digits (n : Z) : nat := String.length (PyStr.str (Z.abs n)).

Section Interpreter.

Variable max_str_digits : nat.

Definition over_limit (count : nat) : bool :=
  ((0 <? max_str_digits) && (max_str_digits <? count))%nat.

(** [int(s)]. *)
Definition int (s : string) : result Z :=
  match PyStr.int s with
  | Some n => if over_limit (digit_count s) then Raise ValueError else Ok n
  | None => Raise ValueError
  end.

(** [str(n)], and [f'{n}']. *)
Definition str (n : Z) : result string :=
  if over_limit (digits n) then Raise ValueError else Ok (PyStr.str n).

(** Lines 25-27. *)
Definition read_cells (cells : list PageElement) : result (string * Z * Z) :=
  c0 <- index cells 0 ;;
  let instance_type := PyStr.strip (Soup.text c0) in
  c1 <- index cells 1 ;;
  instance_enis <- int (PyStr.strip (Soup.text c1)) ;;
  c2 <- index cells 2 ;;
  ips_per_eni <- int (PyStr.strip (Soup.text c2)) ;;
  Ok (instance_type, instance_enis, ips_per_eni).

(** Lines 20-32. *)
Definition row_body (row : PageElement) : row_outcome :=
  let cells := Soup.find_all "td" row in
  if (List.length cells <? 1)%nat then Skipped
  else
    match read_cells cells with
    | Raise ValueError => Skipped
    | Raise e => Raised e
    | Ok (instance_type, instance_enis, ips_per_eni) =>
        match str (max_pods instance_enis ips_per_eni) with
        | Ok text => Printed (instance_type ++ " " ++ text)
        | Raise e => Raised e
        end
    end.

(** Lines 19-32. *)
Fixpoint rows_loop (rows : list PageElement) (stdout : string)
  : string * option exception :=
  match rows with
  | [] => (stdout, None)
  | row :: rest =>
      match row_body row with
      | Skipped => rows_loop rest stdout
      | Printed line => rows_loop rest (print line stdout)
      | Raised e => (stdout, Some e)
      end
  end.

Definition main (w : fetched) : string * option exception :=
  match w with
  | GetRaises => (EmptyString, Some RequestException)
  | GetReturns response =>
      let parsed_html := soup response in
      let tables := Soup.find_all "table" parsed_html in
      match select_table tables with
      | None => (EmptyString, Some (NameError "t"))
      | Some t => rows_loop (Soup.find_all "tr" t) EmptyString
      end
  end.

(** *** Notions used in the statements *)

(** A row parses successfully when the [try] block reads all three values. *)
Definition parsed (row : PageElement) : option (string * Z * Z) :=
  match read_cells (Soup.find_all "td" row) with
  | Ok r => Some r
  | Raise _ => None
  end.

Definition pods_of (r : string * Z * Z) : Z :=
  let '(_, instance_enis, ips_per_eni) := r in max_pods instance_enis ips_per_eni.

(** The interpreter can write the capacity of the row. *)
Definition formattable (r : string * Z * Z) : bool :=
  negb (over_limit (digits (pods_of r))).

(** One line for each row that parses and whose capacity can be written, in
    the order of the rows. *)
Fixpoint lines_of (rows : list PageElement) : string :=
  match rows with
  | [] => EmptyString
  | row :: rest =>
      match parsed row with
      | Some r => if formattable r then line_of r ++ lines_of rest
                  else lines_of rest
      | None => lines_of rest
      end
  end.



Definition raises (row : PageElement) : bool :=
  match row_body row with
  | Raised _ => true
  | _ => false
  end.

(** The rows the loop gets to: all of them, or those up to the first one at
    which an exception escapes. *)
Fixpoint reached (rows : list PageElement) : list PageElement :=
  match rows with
  | [] => []
  | row :: rest => if raises row then [row] else row :: reached rest
  end.

End Interpreter.

End Limited.

(** [n] nines. *)
Fixpoint nines (n : nat) : string :=
  match n with
  | O => EmptyString
  | S n' => String "9" (nines n')
  end.

(** A row that reads (640 digits in cell 1) and whose capacity has 641
    digits. *)
Definition huge_row : PageElement := data_row ["big.type"; nines 640; "11"].

(** A table with no more than 50 elements below it, and 51 direct children
    once the text nodes between its rows are counted. *)
Definition sparse_table : PageElement :=
  table (data_row ["t3.micro"; "2"; "4"] :: repeat (NavigableString " ") 50).

Example strip_ex : PyStr.strip "  a b  " = "a b". Proof. reflexivity. Qed.
Example int_ex1 : PyStr.int "1_000" = Some 1000. Proof. reflexivity. Qed.
Example int_ex2 : PyStr.int "-07" = Some (-7). Proof. reflexivity. Qed.
Example int_ex3 : PyStr.int "1__0" = None. Proof. reflexivity. Qed.
Example int_ex4 : PyStr.int "x" = None. Proof. reflexivity. Qed.
Example int_ex5 : PyStr.int "" = None. Proof. reflexivity. Qed.
Example int_ex6 : PyStr.int "12_" = None. Proof. reflexivity. Qed.
Example str_ex1 : PyStr.str (-2) = "-2". Proof. reflexivity. Qed.
Example str_ex2 : PyStr.str 0 = "0". Proof. reflexivity. Qed.
Example str_ex3 : PyStr.str 89 = "89". Proof. reflexivity. Qed.

Example row_ex1 : row_body (data_row ["t3.micro"; "2"; "4"]) = Printed "t3.micro 5".
Proof. reflexivity. Qed.
Example row_ex2 : row_body (data_row ["bad"; "x"; "4"]) = Skipped.
Proof. reflexivity. Qed.
Example row_ex3 : row_body (data_row ["short"]) = Raised IndexError.
Proof. reflexivity. Qed.
Example row_ex4 : row_body (tr [th "Instance type"; th "ENIs"]) = Skipped.
Proof. reflexivity. Qed.
Example main_ex1 :
  main (GetReturns {| status_code := 200;
                      soup := document [table (data_row ["t3.micro"; "2"; "4"] :: padding 50)] |})
  = ("t3.micro 5" ++ PyStr.newline, None).
Proof. vm_compute. reflexivity. Qed.

Example table_ex1 :
  Soup.descendant_elements text_only_table = 0%nat
  /\ select_table (Soup.find_all "table" (document [text_only_table]))
     = Some text_only_table.
Proof. split; reflexivity. Qed.

(** ** Facts about strings *)

Section StringFacts.

Lemma append_nil_right (s : string) : s ++ "" = s.
Proof. induction s as [|c s IH]; simpl; [reflexivity | now rewrite IH]. Qed.

Lemma append_associative (a b c : string) : (a ++ b) ++ c = a ++ b ++ c.
Proof. induction a as [|x a IH]; simpl; [reflexivity | now rewrite IH]. Qed.














End StringFacts.

(** ** Facts about [int] and [str] *)

Section IntFacts.
















End IntFacts.

(** ** Facts about one row *)

Section RowFacts.

Variable row : PageElement.

Lemma row_body_no_cells :
  Soup.find_all "td" row = [] -> row_body row = Skipped.
Proof. unfold row_body. now intros ->. Qed.



End RowFacts.

(** ** The loop over the rows *)

Section LoopFacts.

Lemma rows_loop_skip (row : PageElement) (rest : list PageElement) (out : string) :
  row_body row = Skipped -> rows_loop (row :: rest) out = rows_loop rest out.
Proof. simpl. now intros ->. Qed.

Lemma rows_loop_print (row : PageElement) (rest : list PageElement)
      (out line : string) :
  row_body row = Printed line ->
  rows_loop (row :: rest) out = rows_loop rest (print line out).
Proof. simpl. now intros ->. Qed.


End LoopFacts.

(** ** The claims *)




(** ** The table locator *)

Section TableFacts.

Lemma fold_pick_small (tables : list PageElement) :
  Forall small tables ->
  forall t, fold_left keep_long tables t = t.
Proof.
  induction 1 as [|u tables Hu _ IH]; intros t; simpl; [reflexivity|].
  rewrite IH. unfold keep_long, small in *.
  destruct (Nat.ltb_spec 50 (Soup.len u)); [lia | reflexivity].
Qed.

Lemma select_table_last (before after : list PageElement) (t : PageElement) :
  (50 < Soup.len t)%nat -> Forall small after ->
  select_table (before ++ t :: after)%list = Some t.
Proof.
  intros Ht Hafter. unfold select_table.
  rewrite fold_left_app. simpl.
  rewrite fold_pick_small by assumption.
  unfold keep_long. destruct (Nat.ltb_spec 50 (Soup.len t)); [reflexivity | lia].
Qed.

Lemma select_table_none (tables : list PageElement) :
  Forall small tables -> select_table tables = None.
Proof. intros H. unfold select_table. now apply fold_pick_small. Qed.

(** Every list of tables has a last long table, or none at all. *)
Lemma last_long_table (tables : list PageElement) :
  Forall small tables \/
  exists before t after,
    tables = (before ++ t :: after)%list /\ (50 < Soup.len t)%nat /\ Forall small after.
Proof.
  induction tables as [|u tables [IH | (before & t & after & E & Ht & Ha)]].
  - left. constructor.
  - destruct (Nat.ltb_spec 50 (Soup.len u)) as [Hu | Hu].
    + right. exists [], u, tables. auto.
    + left. constructor; assumption.
  - right. exists (u :: before), t, after. subst tables. auto.
Qed.

End TableFacts.

(** C3, as the script has it.  Every table of the document is examined, in
    document order, and the one selected is the last whose number of direct
    children ([len(table)]) exceeds 50, whatever tables come before it; no
    table is selected exactly when none has more than 50 direct children.
    The rows read are those of the selected table. *)
Theorem select_table_last_long (tables : list PageElement) :
  (forall t, select_table tables = Some t <->
             exists before after,
               tables = (before ++ t :: after)%list /\ (50 < Soup.len t)%nat /\
               Forall small after)
  /\ (select_table tables = None <-> Forall small tables)
  /\ (forall response, tables = Soup.find_all "table" (soup response) ->
        forall t, select_table tables = Some t ->
                  main (GetReturns response) = rows_loop (Soup.find_all "tr" t) "").
Proof.
  split; [|split].
  - intros t. split.
    + intros Hsel. destruct (last_long_table tables)
        as [Hsmall | (before & t' & after & E & Ht & Ha)].
      * rewrite select_table_none in Hsel by assumption. discriminate.
      * subst tables. rewrite select_table_last in Hsel by assumption.
        injection Hsel as <-. eauto.
    + intros (before & after & -> & Ht & Ha). now apply select_table_last.
  - split; [|apply select_table_none].
    intros Hsel. destruct (last_long_table tables)
      as [Hsmall | (before & t' & after & E & Ht & Ha)]; [assumption|].
    subst tables. rewrite select_table_last in Hsel by assumption. discriminate.
  - intros response -> t Hsel. unfold main. now rewrite Hsel.
Qed.

(** C3, as the claim has it, fails: both tables of [two_tables_doc] have more
    than 50 descendant elements, so the claim selects the last one,
    [deep_table]; the script selects [long_table], because [deep_table] has
    a single direct child. *)
Lemma select_table_not_by_descendants :
  Soup.find_all "table" two_tables_doc = [long_table; deep_table]
  /\ (50 <? Soup.descendant_elements long_table)%nat = true
  /\ (50 <? Soup.descendant_elements deep_table)%nat = true
  /\ select_table (Soup.find_all "table" two_tables_doc) = Some long_table
  /\ long_table <> deep_table.
Proof. repeat split; try reflexivity. discriminate. Qed.

(** C4, as the script has it.  When the fetch itself fails ([requests.get]
    raises), the run ends at once with exit code 1 and nothing on standard
    output.  The status code of a response is never looked at: two responses
    with the same body give the same run. *)
Theorem fetch_failure_is_fatal :
  main GetRaises = ("", Some RequestException)
  /\ exit_code (main GetRaises) = 1
  /\ (forall status status' parsed_html,
        main (GetReturns {| status_code := status; soup := parsed_html |})
        = main (GetReturns {| status_code := status'; soup := parsed_html |})).
Proof. repeat split; reflexivity. Qed.

(** C4, as the claim has it, fails: a response with status 404 whose body
    carries a long table is processed like any other; a data line is printed
    and the exit code is 0. *)
Lemma non_success_status_is_processed :
  status_code not_found_response = 404
  /\ main (GetReturns not_found_response) = ("t3.micro 5" ++ PyStr.newline, None)
  /\ exit_code (main (GetReturns not_found_response)) = 0.
Proof. repeat split; vm_compute; reflexivity. Qed.

(** C5. A row whose cell 1 does not convert to an integer, or whose cell 2
    is there and does not convert, is skipped: no exception escapes, nothing
    is printed for it, and the loop goes on with the rows that follow. *)
Theorem non_integer_cell_skips_row (row : PageElement) :
  (exists c1, nth_error (Soup.find_all "td" row) 1 = Some c1 /\
              PyStr.int (PyStr.strip (Soup.text c1)) = None)
  \/ (exists c1 c2, nth_error (Soup.find_all "td" row) 1 = Some c1 /\
                    nth_error (Soup.find_all "td" row) 2 = Some c2 /\
                    PyStr.int (PyStr.strip (Soup.text c2)) = None) ->
  row_body row = Skipped
  /\ lines_of [row] = ""
  /\ (forall rest out, rows_loop (row :: rest) out = rows_loop rest out).
Proof.
  intros H.
  assert (Hskip : row_body row = Skipped /\ parsed row = None).
  { unfold row_body, parsed, read_cells, index, int.
    destruct (Soup.find_all "td" row) as [|c0 [|c1 [|c2 more]]];
      simpl in *; destruct H as [(d1 & E1 & H1) | (d1 & d2 & E1 & E2 & H2)];
      try discriminate.
    - injection E1 as <-. now rewrite H1.
    - injection E1 as <-. now rewrite H1.
    - injection E1 as <-. injection E2 as <-. rewrite H2.
      now destruct (PyStr.int (PyStr.strip (Soup.text c1))). }
  destruct Hskip as [Hb Hp].
  split; [exact Hb|]. split.
  - simpl. now rewrite Hp.
  - intros rest out. now apply rows_loop_skip.
Qed.

Lemma non_integer_cell_skips_row_witness :
  row_body (data_row ["bad"; "x"; "4"]) = Skipped
  /\ rows_loop [data_row ["bad"; "x"; "4"]; data_row ["t3.micro"; "2"; "4"]] ""
     = rows_loop [data_row ["t3.micro"; "2"; "4"]] "".
Proof.
  destruct (non_integer_cell_skips_row (data_row ["bad"; "x"; "4"])) as [Hb [_ Hl]].
  - left. exists (td "x"). split; reflexivity.
  - split; [exact Hb | apply Hl].
Defined.




(** C7. A row with no data cell (a header row made of [th] cells, say) is
    skipped: nothing is printed for it and the loop goes on with the next
    row. *)
Theorem row_without_data_cells_skipped (row : PageElement) :
  Soup.find_all "td" row = [] ->
  row_body row = Skipped
  /\ lines_of [row] = ""
  /\ (forall rest out, rows_loop (row :: rest) out = rows_loop rest out).
Proof.
  intros Hc. pose proof (row_body_no_cells row Hc) as Hb.
  split; [exact Hb|]. split.
  - simpl. unfold parsed. now rewrite Hc.
  - intros rest out. now apply rows_loop_skip.
Qed.

Lemma row_without_data_cells_skipped_witness :
  row_body (tr [th "Instance type"; th "Maximum network interfaces"]) = Skipped
  /\ rows_loop [tr [th "Instance type"; th "Maximum network interfaces"];
                data_row ["t3.micro"; "2"; "4"]] ""
     = ("t3.micro 5" ++ PyStr.newline, None).
Proof.
  destruct (row_without_data_cells_skipped
              (tr [th "Instance type"; th "Maximum network interfaces"]) eq_refl)
    as [Hb [_ Hl]].
  split; [exact Hb|]. rewrite Hl. reflexivity.
Defined.

(** C8. When no table of the document passes the size heuristic, [t] is
    unbound at line 17: the run ends there with [NameError], exit code 1,
    before any row is looked at and with nothing on standard output. *)
Theorem no_qualifying_table_is_fatal (response : Response) :
  Forall small (Soup.find_all "table" (soup response)) ->
  main (GetReturns response) = ("", Some (NameError "t"))
  /\ exit_code (main (GetReturns response)) = 1.
Proof.
  intros H. unfold main. rewrite select_table_none by assumption.
  split; reflexivity.
Qed.

Lemma no_qualifying_table_is_fatal_witness :
  main (GetReturns small_table_response) = ("", Some (NameError "t"))
  /\ exit_code (main (GetReturns small_table_response)) = 1.
Proof.
  apply (no_qualifying_table_is_fatal small_table_response).
  repeat constructor.
Defined.





(** ** Further properties of the script *)

Section TraversalFacts.

Variable name : string.



End TraversalFacts.

Section RunFacts.

Lemma select_table_cons_app (l1 l2 : list PageElement) (t0 : option PageElement) :
  fold_left keep_long (l1 ++ l2) t0
  = match fold_left keep_long l2 None with
    | Some t => Some t
    | None => fold_left keep_long l1 t0
    end.
Proof.
  rewrite fold_left_app. generalize (fold_left keep_long l1 t0) as acc.
  induction l2 as [|u l2 IH] using rev_ind; intros acc; [reflexivity|].
  rewrite !fold_left_app. cbn [fold_left]. unfold keep_long at 1 3.
  destruct (50 <? Soup.len u)%nat; [reflexivity | apply IH].
Qed.

End RunFacts.


(** X4. What a row does depends only on the stripped text of its first
    three data cells: markup inside the cells, whitespace around their text
    and any further cells make no difference. *)
Theorem row_body_three_texts
        (row row' c0 c1 c2 d0 d1 d2 : PageElement) (more more' : list PageElement) :
  Soup.find_all "td" row = c0 :: c1 :: c2 :: more ->
  Soup.find_all "td" row' = d0 :: d1 :: d2 :: more' ->
  PyStr.strip (Soup.text c0) = PyStr.strip (Soup.text d0) ->
  PyStr.strip (Soup.text c1) = PyStr.strip (Soup.text d1) ->
  PyStr.strip (Soup.text c2) = PyStr.strip (Soup.text d2) ->
  row_body row = row_body row' /\ parsed row = parsed row'.
Proof.
  intros Hc Hd E0 E1 E2.
  unfold row_body, parsed, read_cells, index, int. rewrite Hc, Hd.
  simpl. now rewrite E0, E1, E2.
Qed.

Lemma row_body_three_texts_witness :
  row_body marked_up_row = row_body (data_row ["t3.micro"; "2"; "4"])
  /\ parsed marked_up_row = parsed (data_row ["t3.micro"; "2"; "4"]).
Proof.
  exact (row_body_three_texts marked_up_row (data_row ["t3.micro"; "2"; "4"])
           _ _ _ _ _ _ _ _ eq_refl eq_refl eq_refl eq_refl eq_refl).
Defined.



(** X6. The loop over two runs of rows is the loop over the first followed
    by the loop over the second on what the first printed; when an exception
    leaves the first, the second is not looked at and what was printed
    stays. *)
Theorem rows_loop_app (rows rows' : list PageElement) (out : string) :
  rows_loop (rows ++ rows') out
  = match rows_loop rows out with
    | (printed, None) => rows_loop rows' printed
    | (printed, Some x) => (printed, Some x)
    end.
Proof.
  revert out. induction rows as [|row rest IH]; intros out; [reflexivity|].
  cbn [app rows_loop]. destruct (row_body row); auto.
Qed.

(** X7. From one interface and one address up, the capacity never goes down
    when either count goes up, and the two counts can be exchanged; with no
    interface at all each further address lowers it. *)
Theorem max_pods_monotone (e e' i i' : Z) :
  1 <= e <= e' -> 1 <= i <= i' ->
  max_pods e i <= max_pods e' i'
  /\ max_pods e i = max_pods i e
  /\ max_pods 0 (i + 1) < max_pods 0 i.
Proof. intros He Hi. unfold max_pods. repeat split; nia. Qed.

Lemma max_pods_monotone_witness :
  max_pods 2 4 <= max_pods 3 10 /\ max_pods 2 4 = max_pods 4 2
  /\ max_pods 0 (4 + 1) < max_pods 0 4.
Proof. apply (max_pods_monotone 2 3 4 10); lia. Defined.



(** X9. Scanning two runs of tables: a table selected in the second run
    wins; with none there, the selection of the first run stands. *)
Theorem select_table_app (tables tables' : list PageElement) :
  select_table (tables ++ tables')
  = match select_table tables' with
    | Some t => Some t
    | None => select_table tables
    end.
Proof. apply select_table_cons_app. Qed.



(** X11. A selected table none of whose rows has a data cell (header rows
    only, or no row at all) gives a silent success: nothing is printed and
    the run ends normally. *)
Theorem no_data_rows_silent_success (response : Response) (t : PageElement) :
  select_table (Soup.find_all "table" (soup response)) = Some t ->
  Forall (fun row => Soup.find_all "td" row = []) (Soup.find_all "tr" t) ->
  main (GetReturns response) = ("", None)
  /\ exit_code (main (GetReturns response)) = 0.
Proof.
  intros Hsel Hrows. unfold exit_code, main. rewrite Hsel.
  assert (H : forall out, rows_loop (Soup.find_all "tr" t) out = (out, None)).
  { induction Hrows as [|row rest Hrow _ IH]; intros out; [reflexivity|].
    rewrite rows_loop_skip by now apply row_body_no_cells. apply IH. }
  rewrite H. split; reflexivity.
Qed.

Lemma no_data_rows_silent_success_witness :
  main (GetReturns {| status_code := 200; soup := document [header_table] |})
  = ("", None)
  /\ exit_code (main (GetReturns {| status_code := 200;
                                    soup := document [header_table] |})) = 0.
Proof.
  apply (no_data_rows_silent_success
           {| status_code := 200; soup := document [header_table] |} header_table).
  - reflexivity.
  - repeat constructor.
Defined.

(** ** The script under the digit limit *)

Section LimitedFacts.

Variable limit : nat.

Lemma limited_int_cases (s : string) :
  (exists n, Limited.int limit s = Ok n /\ PyStr.int s = Some n /\
             Limited.over_limit limit (Limited.digit_count s) = false)
  \/ Limited.int limit s = Raise ValueError.
Proof.
  unfold Limited.int. destruct (PyStr.int s) as [n|]; [|now right].
  destruct (Limited.over_limit limit (Limited.digit_count s)); [now right|].
  left. eauto.
Qed.

Ltac int_cases :=
  repeat match goal with
         | |- context [Limited.int limit ?s] =>
             let n := fresh "n" in
             destruct (limited_int_cases s) as [[n [-> _]] | ->]; simpl
         end.

Lemma limited_read_cells_raise (cells : list PageElement) (x : exception) :
  Limited.read_cells limit cells = Raise x -> x = IndexError \/ x = ValueError.
Proof.
  unfold Limited.read_cells, index, bind.
  destruct cells as [|c0 [|c1 [|c2 more]]]; simpl; int_cases;
    intros H; inversion H; auto.
Qed.

(** The outcome of a row, read off [Limited.parsed]. *)
Lemma limited_row_body_cases (row : PageElement) :
  match Limited.parsed limit row with
  | Some (ty, e, i) =>
      if Limited.over_limit limit (Limited.digits (max_pods e i))
      then Limited.row_body limit row = Raised ValueError
      else Limited.row_body limit row = Printed (format_line ty (max_pods e i))
  | None => Limited.row_body limit row = Skipped \/
            Limited.row_body limit row = Raised IndexError
  end.
Proof.
  unfold Limited.parsed, Limited.row_body.
  destruct (Soup.find_all "td" row) as [|c0 cells] eqn:Hc.
  - simpl. now left.
  - cbn [List.length Nat.ltb Nat.leb].
    destruct (Limited.read_cells limit (c0 :: cells)) as [[[ty e] i]|x] eqn:R.
    + unfold Limited.str.
      now destruct (Limited.over_limit limit (Limited.digits (max_pods e i))).
    + apply limited_read_cells_raise in R as [-> | ->]; auto.
Qed.

Lemma limited_rows_loop_stdout (rows : list PageElement) :
  forall out,
    fst (Limited.rows_loop limit rows out)
    = out ++ Limited.lines_of limit (Limited.reached limit rows).
Proof.
  induction rows as [|row rest IH]; intros out.
  - simpl. now rewrite append_nil_right.
  - pose proof (limited_row_body_cases row) as Hp.
    cbn [Limited.rows_loop Limited.reached]. unfold Limited.raises.
    destruct (Limited.parsed limit row) as [[[ty e] i]|] eqn:Hrow.
    + destruct (Limited.over_limit limit (Limited.digits (max_pods e i))) eqn:Hov;
        rewrite Hp.
      * cbn [Limited.lines_of fst]. rewrite Hrow.
        unfold Limited.formattable, Limited.pods_of. rewrite Hov.
        simpl. now rewrite append_nil_right.
      * cbn [Limited.lines_of]. rewrite Hrow.
        unfold Limited.formattable, Limited.pods_of. rewrite Hov.
        cbn [negb]. rewrite IH. unfold print, line_of.
        now rewrite !append_associative.
    + destruct Hp as [Hp | Hp]; rewrite Hp.
      * cbn [Limited.lines_of]. now rewrite Hrow, IH.
      * cbn [Limited.lines_of fst]. now rewrite Hrow, append_nil_right.
Qed.

Lemma limited_reached_all (rows : list PageElement) :
  existsb (Limited.raises limit) rows = false -> Limited.reached limit rows = rows.
Proof.
  induction rows as [|row rest IH]; simpl; [reflexivity|].
  intros H. apply orb_false_iff in H as [Hr Hrest].
  now rewrite Hr, IH.
Qed.

Lemma limited_rows_loop_normal (rows : list PageElement) :
  forall out, snd (Limited.rows_loop limit rows out) = None
              <-> existsb (Limited.raises limit) rows = false.
Proof.
  induction rows as [|row rest IH]; simpl; intros out; [tauto|].
  unfold Limited.raises at 1.
  destruct (Limited.row_body limit row); simpl; try apply IH.
  split; discriminate.
Qed.





End LimitedFacts.

(** With the limit disabled the two models of the script are one. *)
Section LimitDisabled.

Lemma int_unlimited (s : string) : Limited.int 0 s = int s.
Proof. unfold Limited.int, int. now destruct (PyStr.int s). Qed.

Lemma row_body_unlimited (row : PageElement) :
  Limited.row_body 0 row = row_body row.
Proof.
  unfold Limited.row_body, row_body, Limited.read_cells, read_cells, index, bind.
  destruct (Soup.find_all "td" row) as [|c0 [|c1 [|c2 more]]]; simpl;
    rewrite ?int_unlimited; reflexivity.
Qed.

Lemma rows_loop_unlimited (rows : list PageElement) :
  forall out, Limited.rows_loop 0 rows out = rows_loop rows out.
Proof.
  induction rows as [|row rest IH]; intros out; [reflexivity|].
  cbn [Limited.rows_loop rows_loop]. rewrite row_body_unlimited.
  destruct (row_body row); auto.
Qed.

Lemma main_unlimited (w : fetched) : Limited.main 0 w = main w.
Proof.
  destruct w as [|response]; [reflexivity|]. unfold Limited.main, main.
  destruct (select_table (Soup.find_all "table" (soup response)));
    [apply rows_loop_unlimited | reflexivity].
Qed.

End LimitDisabled.

Example limited_ex1 : Limited.row_body 640 huge_row = Raised ValueError.
Proof. vm_compute. reflexivity. Qed.
Example limited_ex2 :
  Limited.row_body 640 (data_row ["big.type"; nines 641; "11"]) = Skipped.
Proof. vm_compute. reflexivity. Qed.
Example limited_ex3 :
  Limited.row_body 0 huge_row
  = Printed ("big.type " ++ nines 639 ++ "82").
Proof. vm_compute. reflexivity. Qed.
Example limited_ex4 :
  Limited.row_body 4300 (data_row ["t3.micro"; "2"; "4"]) = Printed "t3.micro 5".
Proof. vm_compute. reflexivity. Qed.

(** C2, as the script has it.  Whatever the digit limit of the interpreter,
    standard output after the loop is what was there before, followed by
    exactly one line ["<instance_type> <max_pods>"] for each row that parses
    successfully and whose capacity the interpreter can write, among the
    rows the loop gets to, in the order of the rows; when no row raises, the
    loop gets to every row and ends normally.  The row with cells
    ["t3.micro"], ["2"], ["4"] gives the line ["t3.micro 5"]. *)
Theorem rows_loop_emits_reached_in_order
        (limit : nat) (rows : list PageElement) (out : string) :
  fst (Limited.rows_loop limit rows out)
  = out ++ Limited.lines_of limit (Limited.reached limit rows)
  /\ (existsb (Limited.raises limit) rows = false ->
      Limited.rows_loop limit rows out = (out ++ Limited.lines_of limit rows, None))
  /\ (forall row ty e i,
        Limited.parsed limit row = Some (ty, e, i) ->
        Limited.over_limit limit (Limited.digits (max_pods e i)) = false ->
        Limited.row_body limit row = Printed (ty ++ " " ++ PyStr.str (max_pods e i))
        /\ Limited.lines_of limit [row]
           = ty ++ " " ++ PyStr.str (max_pods e i) ++ PyStr.newline)
  /\ Limited.rows_loop limit [data_row ["t3.micro"; "2"; "4"]] ""
     = ("t3.micro 5" ++ PyStr.newline, None).
Proof.
  split; [apply limited_rows_loop_stdout|]. split; [|split].
  - intros H.
    rewrite (surjective_pairing (Limited.rows_loop limit rows out)).
    rewrite limited_rows_loop_stdout, limited_reached_all by assumption.
    f_equal. now apply limited_rows_loop_normal.
  - intros row ty e i Hp Hov. pose proof (limited_row_body_cases limit row) as Hb.
    rewrite Hp, Hov in Hb. split; [exact Hb|].
    cbn [Limited.lines_of]. rewrite Hp.
    unfold Limited.formattable, Limited.pods_of. rewrite Hov.
    cbn [negb]. unfold line_of, format_line.
    now rewrite append_nil_right, !append_associative.
  - destruct limit as [|[|n]]; reflexivity.
Qed.

Lemma rows_loop_emits_reached_in_order_witness :
  Limited.rows_loop 4300
    [data_row ["a1.medium"; "2"; "4"]; tr [th "Instance type"];
     data_row ["bad"; "x"; "4"]; data_row ["a1.large"; "3"; "10"]] ""
  = ("a1.medium 5" ++ PyStr.newline ++ "a1.large 20" ++ PyStr.newline, None).
Proof.
  exact (proj1 (proj2 (rows_loop_emits_reached_in_order 4300
    [data_row ["a1.medium"; "2"; "4"]; tr [th "Instance type"];
     data_row ["bad"; "x"; "4"]; data_row ["a1.large"; "3"; "10"]] ""))
    eq_refl).
Defined.

(** C2, as the claim has it, fails: the row with cells ["t3.micro"], ["2"],
    ["4"] parses successfully, and yet prints nothing when a one-cell row
    comes before it: the run has ended there with [IndexError].  This is so
    with and without the digit limit. *)
Lemma parsed_row_after_crash_prints_nothing :
  parsed (data_row ["t3.micro"; "2"; "4"]) = Some ("t3.micro", 2, 4)
  /\ rows_loop [data_row ["short"]; data_row ["t3.micro"; "2"; "4"]] ""
     = ("", Some IndexError)
  /\ Limited.parsed 4300 (data_row ["t3.micro"; "2"; "4"]) = Some ("t3.micro", 2, 4)
  /\ Limited.rows_loop 4300 [data_row ["short"]; data_row ["t3.micro"; "2"; "4"]] ""
     = ("", Some IndexError).
Proof. repeat split; vm_compute; reflexivity. Qed.

(** C8, as the claim has it, fails: no table of the document has more than
    50 elements below it, and yet [sparse_table], which has 51 direct
    children once its text nodes are counted, is selected; its row is
    printed and the exit code is 0. *)
Lemma sparse_table_is_processed :
  Soup.find_all "table" (document [sparse_table]) = [sparse_table]
  /\ (Soup.descendant_elements sparse_table <= 50)%nat
  /\ main (GetReturns {| status_code := 200; soup := document [sparse_table] |})
     = ("t3.micro 5" ++ PyStr.newline, None)
  /\ exit_code (main (GetReturns {| status_code := 200;
                                    soup := document [sparse_table] |})) = 0.
Proof.
  split; [reflexivity|]. split; [vm_compute; lia|].
  split; vm_compute; reflexivity.
Qed.





